(** * Draft autosave for the Add Cards window: the draft store

    A shallow embedding of [src/__init__.py].  The module keeps one draft per
    note type in a JSON file of the profile folder, stamps every draft with
    the wall clock, prunes drafts older than [MAX_AGE_SECONDS] on every load
    and save, and puts a draft back onto the form positionally.

    Conventions of the embedding:
    - a Python [float] is an exact rational or one of the three special
      values of binary64 ([pyfloat]); rounding and overflow are not modelled;
    - a parsed JSON document is a [json] value, objects are finite maps with
      string keys ([gmap string json]);
    - a Python exception is a [Raise] outcome; code that touches the file or
      the clock runs in the monad [M] over the [world];
    - the file is known by what reading it gives: nothing, bytes that
      [json.load] rejects, or a JSON document; what [json.dump] writes reads
      back as the value written; a failure of the file system is a file that
      may not be opened for reading, or not for writing and removing;
    - Python's [float(s)] on a string is a parameter ([float_of_str]) of the
      development. *)

From Stdlib Require Import QArith Lqa.
From stdpp Require Import gmap strings list fin_maps.

Set Warnings "-register-all".

Open Scope Q_scope.
Open Scope string_scope.
Open Scope list_scope.
Open Scope stdpp_scope.

(** ** Configuration *)

(** [AUTOSAVE_INTERVAL_MS = 5000] *)
Definition AUTOSAVE_INTERVAL_MS : Z := 5000.

(** [MAX_AGE_SECONDS = 48 * 60 * 60] *)
Definition MAX_AGE_SECONDS : Z := 48 * 60 * 60.

(** ** Python values *)

(** A Python [float]: a finite number, [inf], [-inf] or [nan]. *)
Inductive pyfloat : Type :=
  | Fin (q : Q)
  | PInf
  | NInf
  | NaN.

(** [a - b] on floats. *)
Definition fsub (a b : pyfloat) : pyfloat :=
  match a, b with
  | NaN, _ | _, NaN => NaN
  | Fin x, Fin y => Fin (x - y)
  | Fin _, PInf => NInf
  | Fin _, NInf => PInf
  | PInf, PInf => NaN
  | PInf, _ => PInf
  | NInf, NInf => NaN
  | NInf, _ => NInf
  end.

(** [a <= b] on floats; every comparison with [nan] is [False]. *)
Definition fle (a b : pyfloat) : bool :=
  match a, b with
  | NaN, _ | _, NaN => false
  | NInf, _ => true
  | _, PInf => true
  | Fin x, Fin y => Qle_bool x y
  | _, _ => false
  end.

(** [a > b] on floats. *)
Definition fgt (a b : pyfloat) : bool :=
  match a, b with
  | NaN, _ | _, NaN => false
  | PInf, PInf => false
  | PInf, _ => true
  | Fin _, NInf => true
  | Fin x, Fin y => negb (Qle_bool x y)
  | _, _ => false
  end.

(** What [json.load] returns: [None], [bool], a number ([int] and [float]
    are both [JNum]: the code only ever passes them to [float()]), [str],
    [list] and [dict]. *)
Inductive json : Type :=
  | JNull
  | JBool (b : bool)
  | JNum (x : pyfloat)
  | JStr (s : string)
  | JArr (l : list json)
  | JObj (d : gmap string json).

(** The exceptions the code can meet; all of them derive from [Exception]. *)
Inductive exn : Type :=
  | AttributeError
  | TypeError
  | ValueError
  | KeyError
  | IndexError
  | JSONDecodeError
  | FileNotFoundError
  | PermissionError.

Inductive outcome (A : Type) : Type :=
  | Ret (a : A)
  | Raise (e : exn).
Arguments Ret {A} a.
Arguments Raise {A} e.

(** Truth value of a number: [0] and [0.0] are false, [nan] is true. *)
Definition truthy_float (x : pyfloat) : bool :=
  match x with
  | Fin q => negb (Qeq_bool q 0)
  | _ => true
  end.

(** Truth value of a string: [not s] holds for the empty string only. *)
Definition truthy_str (s : string) : bool :=
  match s with
  | EmptyString => false
  | _ => true
  end.

(** Truth value of a JSON value, as [if not entry] reads it. *)
Definition truthy (v : json) : bool :=
  match v with
  | JNull => false
  | JBool b => b
  | JNum x => truthy_float x
  | JStr s => truthy_str s
  | JArr l => match l with [] => false | _ => true end
  | JObj d => negb (bool_decide (d = ∅))
  end.

(** ** The world: the autosave file and the clock *)

(** What opening the file and [json.load] make of its bytes: a decoding or
    parse error, or a JSON document. *)
Inductive file_content : Type :=
  | NotJson
  | Json (v : json).

(** The state the module runs against.  [disk] is the file
    [add_cards_autosave.json] of the profile folder ([None]: no such file);
    [readable] and [writable] say whether opening it for reading, and opening
    it for writing or removing it, succeed; [clock] lists the successive
    values of [time.time()] and [reads] counts the values consumed. *)
Record world : Type := World {
  disk : option file_content;
  readable : bool;
  writable : bool;
  clock : nat -> Q;
  reads : nat
}.

Definition set_disk (d : option file_content) (w : world) : world :=
  World d (readable w) (writable w) (clock w) (reads w).

Definition tick (w : world) : world :=
  World (disk w) (readable w) (writable w) (clock w) (S (reads w)).

(** Computations over the world that return a value or raise. *)
Definition M (A : Type) : Type := world -> outcome A * world.

#[global] Instance M_ret : MRet M := fun A a w => (Ret a, w).

#[global] Instance M_bind : MBind M := fun A B f m w =>
  match m w with
  | (Ret a, w') => f a w'
  | (Raise e, w') => (Raise e, w')
  end.

(** [try: m  except Exception: h] *)
Definition try_except {A : Type} (m : M A) (h : M A) : M A := fun w =>
  match m w with
  | (Ret a, w') => (Ret a, w')
  | (Raise _, w') => h w'
  end.

(** [try: m  except FileNotFoundError: h1  except Exception: h2] *)
Definition try_except_fnf {A : Type} (m h1 h2 : M A) : M A := fun w =>
  match m w with
  | (Ret a, w') => (Ret a, w')
  | (Raise FileNotFoundError, w') => h1 w'
  | (Raise _, w') => h2 w'
  end.

(** [os.path.exists(path)] *)
Definition os_path_exists : M bool := fun w =>
  (Ret (bool_decide (is_Some (disk w))), w).

(** [with open(path, "r", encoding="utf-8") as f: json.load(f)] *)
Definition open_json_load : M json := fun w =>
  match disk w with
  | None => (Raise FileNotFoundError, w)
  | Some c =>
      if readable w then
        match c with
        | NotJson => (Raise JSONDecodeError, w)
        | Json v => (Ret v, w)
        end
      else (Raise PermissionError, w)
  end.

(** [with open(path, "w", encoding="utf-8") as f: json.dump(data, f)];
    reading the file back gives [data]. *)
Definition open_json_dump (data : json) : M unit := fun w =>
  if writable w then (Ret tt, set_disk (Some (Json data)) w)
  else (Raise PermissionError, w).

(** [os.remove(path)] *)
Definition os_remove : M unit := fun w =>
  match disk w with
  | None => (Raise FileNotFoundError, w)
  | Some _ =>
      if writable w then (Ret tt, set_disk None w)
      else (Raise PermissionError, w)
  end.

(** [_now_ts()]: [time.time()], the next value of the clock. *)
Definition _now_ts : M pyfloat := fun w =>
  (Ret (Fin (clock w (reads w))), tick w).

(** ** The form: a note and its fields *)

#[global] Instance outcome_ret : MRet outcome := fun A a => Ret a.

#[global] Instance outcome_bind : MBind outcome := fun A B f o =>
  match o with
  | Ret a => f a
  | Raise e => Raise e
  end.

(** A note of the host is its ordered list of (field name, value) pairs,
    which is what [note.items()] returns; the host keeps the field names of a
    note type distinct. *)

(** [note[field_name] = value]: the host stores the value at the position of
    that field, and raises [KeyError] when the note has no such field. *)
Fixpoint note_setitem {A : Type} (field_name : string) (value : A)
    (note : list (string * A)) : outcome (list (string * A)) :=
  match note with
  | [] => Raise KeyError
  | (k, v) :: rest =>
      if String.eqb k field_name then Ret ((k, value) :: rest)
      else rest' ← note_setitem field_name value rest; mret ((k, v) :: rest')
  end.

(** [fields[i]]: [IndexError] past the end. *)
Definition list_getitem {A : Type} (l : list A) (i : nat) : outcome A :=
  match l !! i with
  | Some x => Ret x
  | None => Raise IndexError
  end.

(** [_extract_fields(note)] *)
Definition _extract_fields {A : Type} (note : list (string * A)) : list A :=
  note.*2.

(** The loop of [_apply_fields] from index [i] on: [items] is what is left of
    [enumerate(note.items())], [note] the note as updated so far. *)
Fixpoint apply_fields_from {A : Type} (i : nat) (items : list (string * A))
    (fields : list A) (note : list (string * A))
    : outcome (list (string * A)) :=
  match items with
  | [] => Ret note
  | (field_name, _old_val) :: items' =>
      if (i <? length fields)%nat then
        value ← list_getitem fields i;
        note' ← note_setitem field_name value note;
        apply_fields_from (S i) items' fields note'
      else apply_fields_from (S i) items' fields note
  end.

(** [_apply_fields(note, fields)]; the result is the note after the call. *)
Definition _apply_fields {A : Type} (note : list (string * A))
    (fields : list A) : outcome (list (string * A)) :=
  apply_fields_from 0 note fields note.

(** ** The Add dialog of the host

    The host's objects are known by what the module reads and writes of
    them.  A note has a note type, reached by [note.note_type()] or, on an
    older host that lacks it, by [note.model()]; of the note type only the
    entry ["name"] is read.  A note lists its fields in order and may carry
    tags.  The editor holds the note (or [None]) and offers two refresh
    calls, each of which may fail.  The dialog holds the editor and the two
    attributes the module attaches to it. *)

Record note_obj (A : Type) : Type := NoteObj {
  note_has_note_type : bool;
  note_notetype_name : option string;
  note_fields : list (string * A);
  note_tags : option (list A)
}.
Arguments NoteObj {A} _ _ _ _.
Arguments note_has_note_type {A} _.
Arguments note_notetype_name {A} _.
Arguments note_fields {A} _.
Arguments note_tags {A} _.

(** The refresh calls of the editor. *)
Inductive ui_call : Type :=
  | LoadNoteKeepingFocus
  | LoadNote.

(** [editor_refreshed] lists the refresh calls that went through. *)
Record editor_obj (A : Type) : Type := EditorObj {
  editor_note : option (note_obj A);
  editor_can_keep_focus : bool;
  editor_can_load : bool;
  editor_refreshed : list ui_call
}.
Arguments EditorObj {A} _ _ _ _.
Arguments editor_note {A} _.
Arguments editor_can_keep_focus {A} _.
Arguments editor_can_load {A} _.
Arguments editor_refreshed {A} _.

(** [QTimer]: its interval in milliseconds and whether it was started. *)
Record qtimer : Type := QTimer {
  timer_interval : Z;
  timer_active : bool
}.

(** The [AddCards] dialog; the two attributes are [None] until the module
    sets them. *)
Record add_cards_obj (A : Type) : Type := AddCardsObj {
  ac_editor : editor_obj A;
  _draft_autosave_last_nt_name : option string;
  _draft_autosave_timer : option qtimer
}.
Arguments AddCardsObj {A} _ _ _.
Arguments ac_editor {A} _.
Arguments _draft_autosave_last_nt_name {A} _.
Arguments _draft_autosave_timer {A} _.

(** The class [AddCards]: its [closeEvent], when it has one, and the flag
    [_draft_autosave_close_patched]. *)
Record add_cards_class (A : Type) : Type := AddCardsClass {
  closeEvent : option (add_cards_obj A → M (add_cards_obj A));
  _draft_autosave_close_patched : bool
}.
Arguments AddCardsClass {A} _ _.
Arguments closeEvent {A} _.
Arguments _draft_autosave_close_patched {A} _.

(** ** The draft store *)

Section Store.

(** Python's [float(s)] on a string: [None] where it raises [ValueError]. *)
Variable float_of_str : string -> option pyfloat.

(** [float(v)] *)
Definition py_float (v : json) : outcome pyfloat :=
  match v with
  | JNum x => Ret x
  | JBool b => Ret (Fin (if b then 1 else 0))
  | JStr s =>
      match float_of_str s with
      | Some x => Ret x
      | None => Raise ValueError
      end
  | JNull | JArr _ | JObj _ => Raise TypeError
  end.

(** [float(entry.get("last_saved", 0))]; only a [dict] has [get]. *)
Definition last_saved_of (entry : json) : outcome pyfloat :=
  match entry with
  | JObj d => py_float (default (JNum (Fin 0)) (d !! "last_saved"))
  | _ => Raise AttributeError
  end.

Definition max_age : pyfloat := Fin (inject_Z MAX_AGE_SECONDS).

(** [_load_all_backups()] *)
Definition _load_all_backups : M (gmap string json) :=
  present ← os_path_exists;
  if negb present then mret ∅
  else
    try_except
      (data ← open_json_load;
       match data with
       | JObj d => mret d
       | _ => mret ∅
       end)
      (mret ∅).

(** [_save_all_backups(data)] *)
Definition _save_all_backups (data : gmap string json) : M unit :=
  try_except (open_json_dump (JObj data)) (mret tt).

(** One turn of the loop of [_prune_old_backups]. *)
Definition prune_step (now : pyfloat) (nt_name : string) (entry : json)
    (cleaned : gmap string json) : gmap string json :=
  match last_saved_of entry with
  | Raise _ => cleaned
  | Ret last_saved =>
      if fle (fsub now last_saved) max_age then <[nt_name := entry]> cleaned
      else cleaned
  end.

(** [_prune_old_backups(backups)] *)
Definition _prune_old_backups (backups : gmap string json)
    : M (gmap string json) :=
  now ← _now_ts;
  mret (map_fold (prune_step now) ∅ backups).

(** [_load_backup_for_notetype(nt_name)]; Python's [None] is [None]. *)
Definition _load_backup_for_notetype (nt_name : string) : M (option json) :=
  if negb (truthy_str nt_name) then mret None
  else
    backups ← _load_all_backups;
    backups ← _prune_old_backups backups;
    _save_all_backups backups;;
    match backups !! nt_name with
    | None => mret None
    | Some entry =>
        if negb (truthy entry) then mret None
        else
          match last_saved_of entry with
          | Raise _ => mret None
          | Ret last_saved =>
              now ← _now_ts;
              if fgt (fsub now last_saved) max_age then
                _save_all_backups (delete nt_name backups);;
                mret None
              else mret (Some entry)
          end
    end.

(** The entry [_save_backup_for_notetype] writes. *)
Definition new_entry (now : pyfloat) (fields tags : list string) : json :=
  JObj (<["last_saved" := JNum now]>
        (<["fields" := JArr (JStr <$> fields)]>
         (<["tags" := JArr (JStr <$> tags)]> ∅))).

(** [_save_backup_for_notetype(nt_name, fields, tags)] *)
Definition _save_backup_for_notetype (nt_name : string)
    (fields tags : list string) : M unit :=
  if negb (truthy_str nt_name) then mret tt
  else
    backups ← _load_all_backups;
    backups ← _prune_old_backups backups;
    now ← _now_ts;
    _save_all_backups (<[nt_name := new_entry now fields tags]> backups).

(** [_clear_backup_for_notetype(nt_name)] *)
Definition _clear_backup_for_notetype (nt_name : string) : M unit :=
  if negb (truthy_str nt_name) then mret tt
  else
    backups ← _load_all_backups;
    if bool_decide (is_Some (backups !! nt_name)) then
      let backups := delete nt_name backups in
      if negb (bool_decide (backups = ∅)) then _save_all_backups backups
      else try_except_fnf os_remove (mret tt) (mret tt)
    else mret tt.

(** [_clear_all_backups()] *)
Definition _clear_all_backups : M unit :=
  try_except_fnf os_remove (mret tt) (mret tt).

(** *** The session: what the module does with the dialog *)

(** A pure computation inside [M]. *)
Definition lift {A : Type} (o : outcome A) : M A := fun w => (o, w).

(** [note.note_type()] *)
Definition note_note_type {A : Type} (note : note_obj A)
    : outcome (option string) :=
  if note_has_note_type note then Ret (note_notetype_name note)
  else Raise AttributeError.

(** [note.model()] *)
Definition note_model {A : Type} (note : note_obj A)
    : outcome (option string) :=
  Ret (note_notetype_name note).

(** [_note_type_name(note)] *)
Definition _note_type_name {A : Type} (note : option (note_obj A))
    : outcome string :=
  match note with
  | None => Ret ""
  | Some note =>
      nt ← match note_note_type note with
           | Raise AttributeError => note_model note
           | r => r
           end;
      mret (default "" nt)
  end.

(** [v.get(key)]: only a [dict] has [get]; a missing key gives [None]. *)
Definition dict_get (v : json) (key : string) : outcome json :=
  match v with
  | JObj d => Ret (default JNull (d !! key))
  | _ => Raise AttributeError
  end.

(** [editor.loadNoteKeepingFocus()] *)
Definition loadNoteKeepingFocus {A : Type} (editor : editor_obj A)
    : outcome (editor_obj A) :=
  if editor_can_keep_focus editor then
    Ret (EditorObj (editor_note editor) (editor_can_keep_focus editor)
           (editor_can_load editor)
           (editor_refreshed editor ++ [LoadNoteKeepingFocus]))
  else Raise AttributeError.

(** [editor.loadNote()] *)
Definition loadNote {A : Type} (editor : editor_obj A)
    : outcome (editor_obj A) :=
  if editor_can_load editor then
    Ret (EditorObj (editor_note editor) (editor_can_keep_focus editor)
           (editor_can_load editor) (editor_refreshed editor ++ [LoadNote]))
  else Raise AttributeError.

(** The refresh at the end of [_restore_into_add_dialog]: the call that
    keeps the focus, on failure the full reload, on failure nothing. *)
Definition refresh_ui {A : Type} (editor : editor_obj A) : editor_obj A :=
  match loadNoteKeepingFocus editor with
  | Ret editor' => editor'
  | Raise _ =>
      match loadNote editor with
      | Ret editor' => editor'
      | Raise _ => editor
      end
  end.

(** The editor with its note replaced; the note is the object the editor
    holds, so what the module assigns to the note shows in the editor. *)
Definition with_note {A : Type} (note : note_obj A) (editor : editor_obj A)
    : editor_obj A :=
  EditorObj (Some note) (editor_can_keep_focus editor)
    (editor_can_load editor) (editor_refreshed editor).

(** [_restore_into_add_dialog(add_cards)]; the result is the dialog after
    the call.  The values of a draft are JSON values. *)
Definition _restore_into_add_dialog (add_cards : add_cards_obj json)
    : M (add_cards_obj json) :=
  let editor := ac_editor add_cards in
  let note := editor_note editor in
  nt_name ← lift (_note_type_name note);
  if negb (truthy_str nt_name) then mret add_cards
  else
    backup ← _load_backup_for_notetype nt_name;
    match backup with
    | None => mret add_cards
    | Some backup =>
        if negb (truthy backup) then mret add_cards
        else
          fields ← lift (dict_get backup "fields");
          match fields with
          | JArr fields =>
              tags ← lift (dict_get backup "tags");
              match note with
              | None => lift (Raise AttributeError)
              | Some note =>
                  items ← lift (_apply_fields (note_fields note) fields);
                  let tags' :=
                    match tags with
                    | JArr tags => Some tags
                    | _ => note_tags note
                    end in
                  let note' :=
                    NoteObj (note_has_note_type note)
                      (note_notetype_name note) items tags' in
                  mret (AddCardsObj (refresh_ui (with_note note' editor))
                          (_draft_autosave_last_nt_name add_cards)
                          (_draft_autosave_timer add_cards))
              end
          | _ => mret add_cards
          end
    end.

(** [_start_autosave_timer(add_cards)] *)
Definition _start_autosave_timer {A : Type} (add_cards : add_cards_obj A)
    : add_cards_obj A :=
  AddCardsObj (ac_editor add_cards) (Some "")
    (Some (QTimer AUTOSAVE_INTERVAL_MS true)).

(** [do_autosave()], the callback of the timer, on the dialog it was
    created for.  The values of a form are strings. *)
Definition do_autosave (add_cards : add_cards_obj string)
    : M (add_cards_obj string) :=
  match editor_note (ac_editor add_cards) with
  | None => mret add_cards
  | Some note =>
      nt_name ← lift (_note_type_name (Some note));
      if negb (truthy_str nt_name) then mret add_cards
      else
        let add_cards' :=
          AddCardsObj (ac_editor add_cards) (Some nt_name)
            (_draft_autosave_timer add_cards) in
        let fields := _extract_fields (note_fields note) in
        let tags := default [] (note_tags note) in
        _save_backup_for_notetype nt_name fields tags;;
        mret add_cards'
  end.

(** [wrapped_close_event(self, evt)] around the handler it replaces. *)
Definition wrapped_close_event {A : Type}
    (original_close_event : add_cards_obj A → M (add_cards_obj A))
    (self : add_cards_obj A) : M (add_cards_obj A) :=
  let nt_name := default "" (_draft_autosave_last_nt_name self) in
  try_except
    (if truthy_str nt_name then _clear_backup_for_notetype nt_name
     else _clear_all_backups)
    (mret tt);;
  original_close_event self.

(** [_patch_close_event_for_drafts()] *)
Definition _patch_close_event_for_drafts {A : Type}
    (AddCards : add_cards_class A) : add_cards_class A :=
  if _draft_autosave_close_patched AddCards then AddCards
  else
    match closeEvent AddCards with
    | None => AddCards
    | Some original_close_event =>
        AddCardsClass (Some (wrapped_close_event original_close_event)) true
    end.

(** [on_add_cards_did_init(add_cards)] *)
Definition on_add_cards_did_init (add_cards : add_cards_obj json)
    : M (add_cards_obj json) :=
  add_cards' ← _restore_into_add_dialog add_cards;
  mret (_start_autosave_timer add_cards').

(** [on_add_cards_did_add_note(note)] *)
Definition on_add_cards_did_add_note {A : Type} (note : option (note_obj A))
    : M unit :=
  nt_name ← lift (_note_type_name note);
  if truthy_str nt_name then _clear_backup_for_notetype nt_name
  else mret tt.

(** *** Vocabulary of the statements *)

(** The [i]-th next value of the clock: the first call of [_now_ts()] from
    [w] returns [reading w 0], the second [reading w 1], and so on. *)
Definition reading (w : world) (i : nat) : Q := clock w (reads w + i).


(** The persisted store: the mapping the file holds.  No file, and a file
    that does not hold a JSON object, are the empty store. *)
Definition store_of (d : option file_content) : gmap string json :=
  match d with
  | Some (Json (JObj m)) => m
  | _ => ∅
  end.

(** What [_load_all_backups] sees of the store. *)
Definition visible (w : world) : gmap string json :=
  if readable w then store_of (disk w) else ∅.

(** The world after [_save_all_backups(data)]. *)
Definition persist (data : gmap string json) (w : world) : world :=
  if writable w then set_disk (Some (Json (JObj data))) w else w.

(** The world after [os.remove(path)] with its two handlers. *)
Definition unlinked (w : world) : world :=
  match disk w with
  | Some _ => if writable w then set_disk None w else w
  | None => w
  end.

(** The test of the loop of [_prune_old_backups] on one entry. *)
Definition keeps (now : pyfloat) (entry : json) : bool :=
  match last_saved_of entry with
  | Ret last_saved => fle (fsub now last_saved) max_age
  | Raise _ => false
  end.

(** The entries of [backups] that pass the test at time [now]. *)
Definition kept (now : Q) (backups : gmap string json)
    : gmap string json :=
  filter (λ kv, keeps (Fin now) kv.2 = true) backups.



(** *** Sample states *)

(** A clock that shows [t] at the first reading and a second more at each
    further one. *)
Definition ticking (t : Q) : nat → Q := λ n, t + inject_Z (Z.of_nat n).

(** A profile whose autosave file is [d], readable and writable, at time
    [t]. *)
Definition profile (d : option file_content) (t : Q) : world :=
  World d true true (ticking t) 0.

(** A file that holds the JSON object [m]. *)
Definition holding (m : gmap string json) : option file_content :=
  Some (Json (JObj m)).

(** An entry that is a stamp and nothing else. *)
Definition stamped (ts : Q) : json :=
  JObj {["last_saved" := JNum (Fin ts)]}.


(** A form of the note type "Basic", filled in. *)
Definition basic_form : note_obj string :=
  NoteObj true (Some "Basic") [("Front", "front"); ("Back", "back")]
    (Some ["x"]).

(** A form of the note type "Cloze" on a host that only has [note.model()]. *)
Definition cloze_form : note_obj string :=
  NoteObj false (Some "Cloze") [("Text", "text")] None.

(** The note of a dialog just opened on "Basic": its fields are blank. *)
Definition blank_basic : note_obj json :=
  NoteObj true (Some "Basic") [("Front", JStr ""); ("Back", JStr "")] None.

(** A dialog around a note, with both refresh calls working and nothing
    attached to it yet. *)
Definition dialog {A : Type} (note : option (note_obj A)) : add_cards_obj A :=
  AddCardsObj (EditorObj note true true []) None None.

(** A close handler of the host that closes and does nothing else. *)
Definition plain_close {A : Type} (self : add_cards_obj A)
    : M (add_cards_obj A) :=
  mret self.

(** *** The primitives *)

Lemma truthy_str_ne (s : string) : s ≠ "" → truthy_str s = true.
Proof. by destruct s. Qed.

Lemma load_all_run (w : world) :
  _load_all_backups w
  = (Ret (visible w), w).
Proof.
  unfold visible.
  unfold _load_all_backups, mbind, M_bind, os_path_exists, try_except,
    open_json_load, mret, M_ret.
  destruct w as [[[|[]]|] [] wr ck n]; simpl; try done.
Qed.

Lemma save_all_run (data : gmap string json) (w : world) :
  _save_all_backups data w
  = (Ret tt, persist data w).
Proof.
  unfold persist.
  unfold _save_all_backups, try_except, open_json_dump, mret, M_ret.
  by destruct (writable w).
Qed.

Lemma prune_run (backups : gmap string json) (w : world) :
  _prune_old_backups backups w
  = (Ret (map_fold (prune_step (Fin (reading w 0))) ∅ backups), tick w).
Proof.
  unfold _prune_old_backups, mbind, M_bind, _now_ts, mret, M_ret, reading.
  by rewrite Nat.add_0_r.
Qed.

Lemma prune_step_keeps now k e cleaned :
  prune_step now k e cleaned
  = if keeps now e then <[k := e]> cleaned else cleaned.
Proof. unfold prune_step, keeps. by destruct (last_saved_of e). Qed.

(** The loop of [_prune_old_backups] is a filter: an entry is in the result
    exactly when it is in the input and passes the test. *)
Lemma pruned_lookup now (backups : gmap string json) k e :
  map_fold (prune_step now) ∅ backups !! k = Some e
  ↔ backups !! k = Some e ∧ keeps now e = true.
Proof.
  revert k e.
  apply (map_fold_weak_ind (λ r m, ∀ k e,
    r !! k = Some e ↔ m !! k = Some e ∧ keeps now e = true)).
  - intros k e. rewrite !lookup_empty. split; [done | by intros [? _]].
  - intros i x m r Hi IH k e. rewrite prune_step_keeps.
    destruct (decide (i = k)) as [->|Hne].
    + rewrite lookup_insert_eq.
      destruct (keeps now x) eqn:Hk.
      * rewrite lookup_insert_eq. split; [intros [= <-]; done | by intros [? _]].
      * rewrite IH, Hi. split; [by intros [? _] | intros [[= <-] ?]; congruence].
    + rewrite (lookup_insert_ne m) by done.
      destruct (keeps now x); [rewrite lookup_insert_ne by done|]; apply IH.
Qed.

(** [_load_backup_for_notetype] from the first statement to the lookup of
    the key: load, prune, write the pruned mapping back. *)
Lemma load_backup_run (nt_name : string) (w : world) :
  nt_name ≠ "" →
  let backups := map_fold (prune_step (Fin (reading w 0))) ∅ (visible w) in
  let w1 := persist backups (tick w) in
  _load_backup_for_notetype nt_name w
  = match backups !! nt_name with
    | None => (Ret None, w1)
    | Some entry =>
        if negb (truthy entry) then (Ret None, w1)
        else
          match last_saved_of entry with
          | Raise _ => (Ret None, w1)
          | Ret last_saved =>
              if fgt (fsub (Fin (reading w 1)) last_saved) max_age
              then (Ret None, persist (delete nt_name backups) (tick w1))
              else (Ret (Some entry), tick w1)
          end
    end.
Proof.
  intros Hne backups w1. unfold _load_backup_for_notetype.
  rewrite (truthy_str_ne _ Hne). cbn [negb].
  unfold mbind at 1 2 3, M_bind. rewrite load_all_run, prune_run, save_all_run.
  fold backups w1. destruct (backups !! nt_name) as [entry|]; [|done].
  destruct (negb (truthy entry)); [done|].
  destruct (last_saved_of entry) as [last_saved|]; [|done].
  unfold mbind, M_bind, _now_ts. cbn [fst snd].
  replace (clock w1 (reads w1)) with (reading w 1).
  2:{ unfold reading, w1, persist. destruct (writable (tick w)); simpl;
      f_equal; lia. }
  destruct (fgt _ _); [|done].
  by rewrite save_all_run.
Qed.

Lemma save_backup_run (nt_name : string) (fields tags : list string)
    (w : world) :
  nt_name ≠ "" →
  let backups := map_fold (prune_step (Fin (reading w 0))) ∅ (visible w) in
  _save_backup_for_notetype nt_name fields tags w
  = (Ret tt,
     persist (<[nt_name := new_entry (Fin (reading w 1)) fields tags]> backups)
             (tick (tick w))).
Proof.
  intros Hne backups. unfold _save_backup_for_notetype.
  rewrite (truthy_str_ne _ Hne). cbn [negb].
  unfold mbind, M_bind. rewrite load_all_run, prune_run.
  unfold _now_ts. rewrite save_all_run. fold backups.
  replace (clock (tick w) (reads (tick w))) with (reading w 1); [done|].
  unfold reading. simpl. f_equal. lia.
Qed.

Lemma remove_run (w : world) :
  try_except_fnf os_remove (mret tt) (mret tt) w = (Ret tt, unlinked w).
Proof.
  unfold try_except_fnf, os_remove, unlinked, mret, M_ret.
  destruct (disk w); [|done]. by destruct (writable w).
Qed.

Lemma clear_backup_run (nt_name : string) (w : world) :
  nt_name ≠ "" →
  _clear_backup_for_notetype nt_name w
  = (Ret tt,
     match visible w !! nt_name with
     | None => w
     | Some _ =>
         if bool_decide (delete nt_name (visible w) = ∅) then unlinked w
         else persist (delete nt_name (visible w)) w
     end).
Proof.
  intros Hne. unfold _clear_backup_for_notetype.
  rewrite (truthy_str_ne _ Hne). cbn [negb].
  unfold mbind, M_bind. rewrite load_all_run.
  destruct (visible w !! nt_name) as [e|] eqn:He.
  - rewrite bool_decide_eq_true_2 by eauto.
    destruct (bool_decide (delete nt_name (visible w) = ∅)); cbn [negb].
    + apply remove_run.
    + apply save_all_run.
  - rewrite bool_decide_eq_false_2; [done|]. by intros [? ?].
Qed.

(** *** The file after a call *)


Lemma persist_unwritable data w : writable w = false → persist data w = w.
Proof. unfold persist. by intros ->. Qed.

Lemma unlinked_unwritable w : writable w = false → unlinked w = w.
Proof. unfold unlinked. intros ->. by destruct (disk w). Qed.

Lemma visible_lookup_Some w k e :
  visible w !! k = Some e →
  readable w = true ∧ store_of (disk w) !! k = Some e.
Proof. unfold visible. by destruct (readable w). Qed.

(** C4: whatever the state of the backing file, [_load_all_backups] returns
    a mapping and raises nothing, and leaves the world as it was; the
    mapping is empty when the file is absent, when it does not hold JSON,
    when its JSON is not an object at top level (an array, say), and when
    it cannot be opened. *)
Theorem load_all_tolerates_corruption (w : world) :
  (∃ m, _load_all_backups w = (Ret m, w))
  ∧ (disk w = None → _load_all_backups w = (Ret ∅, w))
  ∧ (disk w = Some NotJson → _load_all_backups w = (Ret ∅, w))
  ∧ (∀ v, disk w = Some (Json v) → (∀ d, v ≠ JObj d) →
       _load_all_backups w = (Ret ∅, w))
  ∧ (readable w = false → _load_all_backups w = (Ret ∅, w)).
Proof.
  rewrite load_all_run. unfold visible. repeat split.
  - eauto.
  - intros ->. by destruct (readable w).
  - intros ->. by destruct (readable w).
  - intros v -> Hv. destruct (readable w); [|done].
    destruct v; simpl; try done. by destruct (Hv d).
  - by intros ->.
Qed.


(** C6: clearing a non-empty record type that has no entry in the store
    raises nothing and leaves the world, hence the mapping and the
    existence of the file, as it was; and in every state, for every record
    type, a second [_clear_backup_for_notetype(T)] right after the first
    raises nothing and changes nothing any more. *)
Theorem clear_is_idempotent (T : string) (w : world) :
  (T ≠ "" → store_of (disk w) !! T = None →
     _clear_backup_for_notetype T w = (Ret tt, w))
  ∧ fst (_clear_backup_for_notetype T w) = Ret tt
  ∧ _clear_backup_for_notetype T (snd (_clear_backup_for_notetype T w))
    = (Ret tt, snd (_clear_backup_for_notetype T w)).
Proof.
  destruct (decide (T = "")) as [->|HT].
  { repeat split; try done. }
  assert (Hnone : ∀ w0, visible w0 !! T = None →
            _clear_backup_for_notetype T w0 = (Ret tt, w0)).
  { intros w0 H0. rewrite clear_backup_run by done. by rewrite H0. }
  split; [|split].
  - intros _ Hs. apply Hnone. unfold visible.
    by destruct (readable w).
  - by rewrite clear_backup_run.
  - rewrite (clear_backup_run T w) by done. cbn [snd].
    destruct (visible w !! T) as [e|] eqn:He; [|by apply Hnone].
    destruct (writable w) eqn:Hw.
    + apply Hnone.
      destruct (bool_decide (delete T (visible w) = ∅)).
      * unfold unlinked, visible. rewrite Hw.
        destruct (disk w) eqn:Hd; simpl; rewrite ?Hd;
          destruct (readable w); simpl; by rewrite ?lookup_empty.
      * unfold persist, visible. rewrite Hw. simpl.
        apply visible_lookup_Some in He as [-> _].
        apply lookup_delete_eq.
    + rewrite unlinked_unwritable, persist_unwritable by done.
      destruct (bool_decide (delete T (visible w) = ∅)) eqn:Hb;
        rewrite clear_backup_run by done; rewrite He, Hb;
        by rewrite ?unlinked_unwritable, ?persist_unwritable by done.
Qed.

(** *** Ages *)


Lemma fle_fin (a b : Q) :
  fle (fsub (Fin a) (Fin b)) max_age = true
  ↔ a - b <= inject_Z MAX_AGE_SECONDS.
Proof. simpl. apply Qle_bool_iff. Qed.





(** *** Saving and loading *)




Lemma reading_tick (w : world) (i : nat) :
  reading (tick w) i = reading w (S i).
Proof. unfold reading. simpl. f_equal. lia. Qed.







(** *** Pruning *)

Lemma kept_lookup (now : Q) (backups : gmap string json) k e :
  kept now backups !! k = Some e
  ↔ backups !! k = Some e ∧ keeps (Fin now) e = true.
Proof. unfold kept. by rewrite map_lookup_filter_Some. Qed.


Lemma pruned_kept (now : Q) (backups : gmap string json) :
  map_fold (prune_step (Fin now)) ∅ backups = kept now backups.
Proof.
  apply map_eq. intros k. apply option_eq. intros e.
  by rewrite pruned_lookup, kept_lookup.
Qed.


(** *** More on the store *)

Lemma load_backup_empty_name (w : world) :
  _load_backup_for_notetype "" w = (Ret None, w).
Proof. done. Qed.

Lemma save_backup_empty_name (fields tags : list string) (w : world) :
  _save_backup_for_notetype "" fields tags w = (Ret tt, w).
Proof. done. Qed.

Lemma clear_backup_empty_name (w : world) :
  _clear_backup_for_notetype "" w = (Ret tt, w).
Proof. done. Qed.


Lemma visible_sub_store (w : world) k e :
  visible w !! k = Some e → store_of (disk w) !! k = Some e.
Proof. by intros [_ ?]%visible_lookup_Some. Qed.

(** X1: no call into the store lets an exception out, whatever the state of
    the file and whether or not it can be opened: writing the mapping,
    loading a draft, saving a draft and removing all drafts all return. *)
Theorem store_calls_never_raise (T : string) (F Ts : list string)
    (data : gmap string json) (w : world) :
  fst (_save_all_backups data w) = Ret tt
  ∧ (∃ r, fst (_load_backup_for_notetype T w) = Ret r)
  ∧ fst (_save_backup_for_notetype T F Ts w) = Ret tt
  ∧ fst (_clear_all_backups w) = Ret tt.
Proof.
  refine (conj _ (conj _ (conj _ _))).
  - by rewrite save_all_run.
  - destruct (decide (T = "")) as [->|HT]; [by eexists|].
    rewrite load_backup_run by done.
    destruct (_ !! T) as [entry|]; [|by eexists].
    destruct (negb (truthy entry)); [by eexists|].
    destruct (last_saved_of entry); [|by eexists].
    destruct (fgt _ _); by eexists.
  - destruct (decide (T = "")) as [->|HT]; [done|].
    by rewrite save_backup_run.
  - unfold _clear_all_backups. by rewrite remove_run.
Qed.



(** X4: a load only ever shrinks the persisted store: whatever the file
    holds after [_load_backup_for_notetype(T)] it held before, under the
    same key and unchanged. *)
Theorem load_backup_only_shrinks (T k : string) (e : json) (w : world) :
  store_of (disk (snd (_load_backup_for_notetype T w))) !! k = Some e →
  store_of (disk w) !! k = Some e.
Proof.
  destruct (decide (T = "")) as [->|HT]; [done|].
  rewrite load_backup_run by done.
  set (backups := map_fold _ ∅ _).
  assert (Hsub : ∀ k e, backups !! k = Some e → store_of (disk w) !! k = Some e).
  { intros k' e' [Hv _]%pruned_lookup. by apply visible_sub_store. }
  unfold persist. simpl.
  destruct (writable w) eqn:Hw; simpl; rewrite ?Hw; simpl.
  - destruct (backups !! T) as [entry|]; [|apply Hsub].
    destruct (negb (truthy entry)); [apply Hsub|].
    destruct (last_saved_of entry); [|apply Hsub].
    destruct (fgt _ _); simpl; [|apply Hsub].
    intros [_ Hk]%lookup_delete_Some. by apply Hsub.
  - destruct (backups !! T) as [entry|]; [|done].
    destruct (negb (truthy entry)); [done|].
    destruct (last_saved_of entry); [|done].
    by destruct (fgt _ _).
Qed.





Lemma clear_backup_hides (T : string) (w : world) :
  writable w = true →
  visible (snd (_clear_backup_for_notetype T w)) !! T = None
  ∨ T = "".
Proof.
  intros Hw. destruct (decide (T = "")) as [->|HT]; [by right|]. left.
  rewrite clear_backup_run by done. cbn [snd].
  destruct (visible w !! T) as [e|] eqn:He; [|done].
  apply visible_lookup_Some in He as [Hr He].
  case_bool_decide.
  - unfold unlinked, visible. rewrite Hw.
    destruct (disk w) eqn:Hd; simpl; rewrite ?Hd, Hr; by rewrite ?lookup_empty.
  - unfold persist, visible. rewrite Hw. simpl. rewrite Hr.
    apply lookup_delete_eq.
Qed.

(** X8: after [_clear_backup_for_notetype(T)] a load of [T] finds nothing,
    when the file can be written. *)
Theorem clear_then_load_finds_nothing (T : string) (w : world) :
  writable w = true →
  fst (_load_backup_for_notetype T (snd (_clear_backup_for_notetype T w)))
  = Ret None.
Proof.
  intros Hw. destruct (clear_backup_hides T w Hw) as [Hnone| ->]; [|done].
  destruct (decide (T = "")) as [->|HT]; [done|].
  rewrite load_backup_run by done.
  destruct (map_fold _ ∅ _ !! T) as [e|] eqn:He; [|done].
  apply pruned_lookup in He as [He _]. congruence.
Qed.

(** X9: [_clear_all_backups()] returns in every state; it removes the file
    when the file can be written, so that no draft of any record type is
    left, and changes nothing when there is no file or the file cannot be
    removed. *)
Theorem clear_all_removes_file (w : world) :
  fst (_clear_all_backups w) = Ret tt
  ∧ (writable w = true → disk (snd (_clear_all_backups w)) = None)
  ∧ (disk w = None → snd (_clear_all_backups w) = w)
  ∧ (writable w = false → snd (_clear_all_backups w) = w).
Proof.
  unfold _clear_all_backups. rewrite remove_run. cbn [fst snd].
  unfold unlinked. repeat split.
  - intros ->. by destruct (disk w) eqn:Hd.
  - by intros ->.
  - intros ->. by destruct (disk w).
Qed.

(** X10: pruning twice is pruning once at the later time, when the clock
    does not run backwards in between: an entry dropped at one time is not
    kept at a later one. *)
Theorem prune_twice (backups : gmap string json) (w : world) :
  reading w 0 <= reading w 1 →
  (cleaned ← _prune_old_backups backups; _prune_old_backups cleaned) w
  = (Ret (kept (reading w 1) backups), tick (tick w)).
Proof.
  intros H01. unfold mbind, M_bind. rewrite !prune_run, !pruned_kept.
  rewrite reading_tick. do 2 f_equal.
  apply map_eq. intros k. apply option_eq. intros e.
  rewrite !kept_lookup. split; [by intros [[? _] ?]|].
  intros [Hk Hkeep]. repeat split; try done.
  unfold keeps in *. destruct (last_saved_of e) as [[ts| | |]|]; try done.
  apply fle_fin. apply fle_fin in Hkeep. lra.
Qed.

(** *** What the session needs of the store *)






Lemma clear_backup_world (T : string) (w : world) :
  ∃ d, _clear_backup_for_notetype T w = (Ret tt, set_disk d w).
Proof.
  destruct (decide (T = "")) as [->|HT].
  { exists (disk w). by destruct w. }
  rewrite clear_backup_run by done.
  destruct (visible w !! T); [|exists (disk w); by destruct w].
  case_bool_decide; unfold unlinked, persist;
    destruct w as [[c|] r [] ck n]; simpl; by eexists.
Qed.

Lemma clear_all_world (w : world) :
  ∃ d, _clear_all_backups w = (Ret tt, set_disk d w).
Proof.
  unfold _clear_all_backups. rewrite remove_run. unfold unlinked.
  destruct w as [[c|] r [] ck n]; simpl; by eexists.
Qed.



End Store.

(** ** Putting a draft back onto the form *)

Section Form.

Context {A : Type}.
Implicit Types (note : list (string * A)) (fields : list A).

Local Open Scope nat_scope.

(** Assigning to a field that the note has, and that no earlier field
    shares its name with, replaces the value at its position. *)
Lemma note_setitem_at pre suf (k : string) (v x : A) :
  k ∉ pre.*1 →
  note_setitem k x (pre ++ (k, v) :: suf) = Ret (pre ++ (k, x) :: suf).
Proof.
  induction pre as [|[k' v'] pre IH]; intros Hk; simpl.
  - by rewrite String.eqb_refl.
  - rewrite fmap_cons, not_elem_of_cons in Hk. destruct Hk as [Hne Hk].
    simpl in Hne. destruct (String.eqb_spec k' k) as [->|_]; [done|].
    by rewrite IH.
Qed.

(** The loop, started after the fields [pre] have been dealt with. *)
Lemma apply_fields_from_run pre suf fields :
  NoDup (pre ++ suf).*1 →
  apply_fields_from (length pre) suf fields (pre ++ suf)
  = Ret (pre ++ zip suf.*1
                  (take (length suf) (drop (length pre) fields)
                   ++ drop (length fields - length pre) suf.*2)).
Proof.
  revert pre. induction suf as [|[k v] suf IH]; intros pre Hnd.
  - by rewrite take_0.
  - cbn [apply_fields_from].
    assert (Hk : k ∉ pre.*1).
    { rewrite fmap_app in Hnd. apply NoDup_app in Hnd as (_ & Hnd & _).
      intros Hin. apply (Hnd _ Hin). rewrite fmap_cons. left. }
    assert (Hnd' : ∀ x, NoDup ((pre ++ [(k, x)]) ++ suf).*1).
    { intros x. rewrite <- app_assoc.
      by rewrite !fmap_app, !fmap_cons in *. }
    destruct (Nat.ltb_spec (length pre) (length fields)) as [Hlt|Hge].
    + destruct (lookup_lt_is_Some_2 fields _ Hlt) as [x Hx].
      unfold list_getitem. rewrite Hx. cbn [mbind outcome_bind].
      rewrite note_setitem_at by done. cbn [mbind outcome_bind].
      specialize (IH (pre ++ [(k, x)]) (Hnd' x)).
      rewrite length_app, Nat.add_1_r, <- app_assoc in IH.
      cbn [app] in IH. rewrite IH. f_equal. rewrite <- app_assoc.
      cbn [app]. do 2 f_equal.
      rewrite (drop_S _ _ _ Hx).
      replace (length fields - length pre) with (S (length fields - S (length pre)))
        by lia.
      by rewrite !fmap_cons.
    + specialize (IH (pre ++ [(k, v)]) (Hnd' v)).
      rewrite length_app, Nat.add_1_r, <- app_assoc in IH.
      cbn [app] in IH. rewrite IH. f_equal. rewrite <- app_assoc.
      cbn [app]. do 2 f_equal.
      rewrite (drop_ge fields (length pre)) by lia.
      rewrite (drop_ge fields (S (length pre))) by lia.
      rewrite !take_nil.
      replace (length fields - S (length pre)) with 0 by lia.
      replace (length fields - length pre) with 0 by lia.
      by rewrite !fmap_cons.
Qed.

(** C7: on a note whose field names are distinct, [_apply_fields] raises
    nothing; the note keeps its fields and their names; stored value [i]
    lands on field [i] for every [i] below both lengths, so stored values
    past the last field are dropped; and the fields from position
    [len(fields)] on keep the values they had. *)
Theorem apply_fields_up_to_shorter note fields :
  NoDup note.*1 →
  ∃ note',
    _apply_fields note fields = Ret note'
    ∧ note'.*1 = note.*1
    ∧ (∀ i, i < length fields → i < length note →
         note'.*2 !! i = fields !! i)
    ∧ (∀ i, length fields ≤ i → note'.*2 !! i = note.*2 !! i).
Proof.
  intros Hnd. pose proof (apply_fields_from_run [] note fields Hnd) as Hrun.
  cbn [app length] in Hrun. rewrite Nat.sub_0_r, drop_0 in Hrun.
  eexists. split; [exact Hrun|].
  assert (Hlen : length note.*1
                 = length (take (length note) fields
                           ++ drop (length fields) note.*2)).
  { rewrite length_app, length_take, length_drop, !length_fmap. lia. }
  rewrite fst_zip, snd_zip by lia. split; [done|]. split.
  - intros i Hf Hn. rewrite lookup_app_l by (rewrite length_take; lia).
    by apply lookup_take_lt.
  - intros i Hi. destruct (decide (length note ≤ length fields)) as [Hle|Hgt].
    + rewrite drop_ge, app_nil_r by (rewrite length_fmap; lia).
      rewrite lookup_take_ge by lia. symmetry.
      apply lookup_ge_None. rewrite length_fmap. lia.
    + rewrite take_ge by lia. rewrite lookup_app_r by done.
      rewrite lookup_drop. f_equal. lia.
Qed.

Lemma note_setitem_known note (k : string) (x : A) :
  k ∈ note.*1 →
  ∃ note', note_setitem k x note = Ret note' ∧ note'.*1 = note.*1.
Proof.
  induction note as [|[k' v'] note IH]; intros Hk; simpl.
  - by apply elem_of_nil in Hk.
  - destruct (String.eqb_spec k' k) as [->|Hne]; [by eexists|].
    rewrite fmap_cons, elem_of_cons in Hk. destruct Hk as [Hk|Hk].
    { by destruct Hne. }
    destruct (IH Hk) as (note' & -> & Hnames).
    exists ((k', v') :: note'). split; [done|].
    by rewrite !fmap_cons, Hnames.
Qed.

Lemma apply_fields_from_known (i : nat) items fields note :
  (∀ k, k ∈ items.*1 → k ∈ note.*1) →
  ∃ note', apply_fields_from i items fields note = Ret note'
           ∧ note'.*1 = note.*1.
Proof.
  revert i note. induction items as [|[k v] items IH]; intros i note Hin.
  - by eexists.
  - cbn [apply_fields_from].
    assert (Hrest : ∀ k', k' ∈ items.*1 → k' ∈ note.*1).
    { intros k' Hk'. apply Hin. rewrite fmap_cons. by right. }
    destruct (Nat.ltb_spec i (length fields)) as [Hlt|Hge]; [|by apply IH].
    destruct (lookup_lt_is_Some_2 fields _ Hlt) as [x Hx].
    unfold list_getitem. rewrite Hx. cbn [mbind outcome_bind].
    destruct (note_setitem_known note k x) as (note1 & -> & Hnames).
    { apply Hin. rewrite fmap_cons. by left. }
    cbn [mbind outcome_bind].
    destruct (IH (S i) note1) as (note' & -> & Hnames').
    { intros k' Hk'. rewrite Hnames. by apply Hrest. }
    eexists. split; [done|]. congruence.
Qed.


(** X11: [_apply_fields] raises nothing on any note and any list of stored
    values, with no assumption on the field names: neither the index into
    the list nor the assignment by name can fail, and the note keeps its
    fields and their names. *)
Theorem apply_fields_never_raises note fields :
  ∃ note', _apply_fields note fields = Ret note'
           ∧ note'.*1 = note.*1
           ∧ length note' = length note.
Proof.
  destruct (apply_fields_from_known 0 note fields note) as (note' & Hrun & Hn);
    [done|].
  exists note'. split; [done|]. split; [done|].
  apply (f_equal length) in Hn. by rewrite !length_fmap in Hn.
Qed.

(** X12: putting back onto a note the values [_extract_fields] read off it
    changes nothing, when the field names are distinct. *)
Theorem apply_extracted_fields note :
  NoDup note.*1 → _apply_fields note (_extract_fields note) = Ret note.
Proof.
  intros Hnd. unfold _apply_fields, _extract_fields.
  pose proof (apply_fields_from_run [] note note.*2 Hnd) as Hrun.
  cbn [app length] in Hrun. rewrite Hrun, Nat.sub_0_r, drop_0. f_equal.
  rewrite take_ge, drop_all, app_nil_r by (by rewrite length_fmap).
  apply zip_fst_snd.
Qed.

(** X13: with as many stored values as the note has fields, and distinct
    field names, [_extract_fields] reads off the note after [_apply_fields]
    exactly the stored values. *)
Theorem extract_applied_fields note fields :
  NoDup note.*1 → length fields = length note →
  ∃ note', _apply_fields note fields = Ret note'
           ∧ _extract_fields note' = fields
           ∧ note'.*1 = note.*1.
Proof.
  intros Hnd Hlen. unfold _apply_fields, _extract_fields.
  pose proof (apply_fields_from_run [] note fields Hnd) as Hrun.
  cbn [app length] in Hrun. rewrite Nat.sub_0_r, drop_0 in Hrun.
  rewrite take_ge, drop_ge, app_nil_r in Hrun
    by (rewrite ?length_fmap; lia).
  eexists. split; [exact Hrun|].
  rewrite snd_zip, fst_zip by (rewrite length_fmap; lia). done.
Qed.


End Form.

(** ** The session *)

Section Session.

Variable float_of_str : string → option pyfloat.

Lemma note_type_name_some {A : Type} (note : note_obj A) :
  _note_type_name (Some note) = Ret (default "" (note_notetype_name note)).
Proof. unfold _note_type_name, note_note_type, note_model. by destruct note as [[] ? ? ?]. Qed.

Lemma note_type_name_empty {A : Type} (note : option (note_obj A)) :
  _note_type_name note = Ret ""
  ↔ note = None
    ∨ ∃ n, note = Some n ∧ default "" (note_notetype_name n) = "".
Proof.
  destruct note as [n|]; [rewrite note_type_name_some|]; split.
  - intros [= H]. right. by exists n.
  - intros [|(n' & [= <-] & ->)]; done.
  - by left.
  - done.
Qed.





Lemma close_run {A : Type}
    (original_close_event : add_cards_obj A → M (add_cards_obj A))
    (self : add_cards_obj A) (w : world) :
  wrapped_close_event original_close_event self w
  = original_close_event self
      (snd ((if truthy_str (default "" (_draft_autosave_last_nt_name self))
             then _clear_backup_for_notetype
                    (default "" (_draft_autosave_last_nt_name self))
             else _clear_all_backups) w)).
Proof.
  unfold wrapped_close_event, mbind, M_bind, try_except. cbn zeta.
  destruct (truthy_str _).
  - by destruct (clear_backup_world
                   (default "" (_draft_autosave_last_nt_name self)) w)
      as [d ->].
  - by destruct (clear_all_world w) as [d ->].
Qed.


(** X15: without a note in the editor, or with a note whose type has no
    name or the empty name, the restore, a tick of the timer and the
    handler of an added note do nothing at all: the dialog, the file and
    the clock are as before. *)
Theorem unnamed_note_no_effect (add_cards : add_cards_obj json)
    (ticking_cards : add_cards_obj string)
    (added : option (note_obj string)) (w : world) :
  (_note_type_name (editor_note (ac_editor add_cards)) = Ret "" →
     _restore_into_add_dialog float_of_str add_cards w = (Ret add_cards, w))
  ∧ (_note_type_name (editor_note (ac_editor ticking_cards)) = Ret "" →
     do_autosave float_of_str ticking_cards w = (Ret ticking_cards, w))
  ∧ (_note_type_name added = Ret "" →
     on_add_cards_did_add_note added w = (Ret tt, w)).
Proof.
  refine (conj _ (conj _ _)).
  - intros Hname. unfold _restore_into_add_dialog. by rewrite Hname.
  - intros Hname. unfold do_autosave.
    destruct (editor_note _) as [note|]; [|done]. by rewrite Hname.
  - intros Hname. unfold on_add_cards_did_add_note. by rewrite Hname.
Qed.

(** X16: the handler that replaces [closeEvent] always goes on to the
    handler it replaced, with the dialog as it got it: the cleanup before
    raises nothing, does not read the clock, and changes at most the
    file. *)
Theorem wrapped_close_calls_original {A : Type}
    (original_close_event : add_cards_obj A → M (add_cards_obj A))
    (self : add_cards_obj A) (w : world) :
  ∃ d, wrapped_close_event original_close_event self w
       = original_close_event self (set_disk d w).
Proof.
  rewrite close_run. destruct (truthy_str _).
  - destruct (clear_backup_world
                (default "" (_draft_autosave_last_nt_name self)) w) as [d ->].
    by exists d.
  - destruct (clear_all_world w) as [d ->]. by exists d.
Qed.

(** X17: [_patch_close_event_for_drafts] wraps the close handler once: a
    second call changes nothing, a class without [closeEvent] is left as it
    is, and on a class not yet patched the new handler is the wrapper of the
    old one. *)
Theorem patch_close_event_once {A : Type} (AddCards : add_cards_class A) :
  _patch_close_event_for_drafts (_patch_close_event_for_drafts AddCards)
  = _patch_close_event_for_drafts AddCards
  ∧ (closeEvent AddCards = None →
     _patch_close_event_for_drafts AddCards = AddCards)
  ∧ (∀ original_close_event,
       _draft_autosave_close_patched AddCards = false →
       closeEvent AddCards = Some original_close_event →
       _patch_close_event_for_drafts AddCards
       = AddCardsClass (Some (wrapped_close_event original_close_event)) true).
Proof.
  unfold _patch_close_event_for_drafts.
  destruct AddCards as [[h|] []]; simpl; repeat split; try done.
  - by intros h' _ [= <-].
Qed.







End Session.

(** ** The properties on concrete states *)







(** Corruption tolerance: a file that holds a JSON array loads as the empty
    mapping. *)
Lemma load_all_tolerates_corruption_witness :
  (disk (profile (Some (Json (JArr [JStr "x"]))) 1000)
   = Some (Json (JArr [JStr "x"]))
   ∧ ∀ d, JArr [JStr "x"] ≠ JObj d)
  ∧ _load_all_backups (profile (Some (Json (JArr [JStr "x"]))) 1000)
    = (Ret ∅, profile (Some (Json (JArr [JStr "x"]))) 1000).
Proof.
  split; [split; [reflexivity | discriminate]|].
  exact (proj1 (proj2 (proj2 (proj2
           (load_all_tolerates_corruption
              (profile (Some (Json (JArr [JStr "x"]))) 1000)))))
           (JArr [JStr "x"]) eq_refl ltac:(discriminate)).
Defined.



(** Idempotent clear: "Cloze" has no draft, so clearing it changes nothing;
    and clearing "Basic" twice ends where clearing it once does. *)
Lemma clear_is_idempotent_witness :
  ("Cloze" ≠ ""
   ∧ store_of (holding {["Basic" := stamped 1000]}) !! "Cloze" = None)
  ∧ _clear_backup_for_notetype "Cloze"
      (profile (holding {["Basic" := stamped 1000]}) 1000)
    = (Ret tt, profile (holding {["Basic" := stamped 1000]}) 1000)
  ∧ _clear_backup_for_notetype "Basic"
      (snd (_clear_backup_for_notetype "Basic"
              (profile (holding {["Basic" := stamped 1000]}) 1000)))
    = (Ret tt,
       snd (_clear_backup_for_notetype "Basic"
              (profile (holding {["Basic" := stamped 1000]}) 1000))).
Proof.
  split; [split; [discriminate | reflexivity]|].
  split.
  - exact (proj1 (clear_is_idempotent "Cloze"
                    (profile (holding {["Basic" := stamped 1000]}) 1000))
             ltac:(discriminate) eq_refl).
  - exact (proj2 (proj2 (clear_is_idempotent "Basic"
                    (profile (holding {["Basic" := stamped 1000]}) 1000)))).
Defined.

(** Partial field mismatch: three stored values onto a form of two fields. *)
Lemma apply_fields_up_to_shorter_witness :
  NoDup [("Front", "old front"); ("Back", "old back")].*1
  ∧ ∃ note',
      _apply_fields [("Front", "old front"); ("Back", "old back")]
        ["front"; "back"; "extra"] = Ret note'
      ∧ note'.*1 = [("Front", "old front"); ("Back", "old back")].*1
      ∧ (∀ i, (i < length ["front"; "back"; "extra"])%nat →
              (i < length [("Front", "old front"); ("Back", "old back")])%nat →
              note'.*2 !! i = ["front"; "back"; "extra"] !! i)
      ∧ (∀ i, (length ["front"; "back"; "extra"] ≤ i)%nat →
              note'.*2 !! i
              = [("Front", "old front"); ("Back", "old back")].*2 !! i).
Proof.
  assert (Hnd : NoDup [("Front", "old front"); ("Back", "old back")].*1).
  { simpl. repeat constructor; rewrite ?elem_of_cons, ?elem_of_nil;
      intros H; decompose [or] H; discriminate || done. }
  split; [exact Hnd|].
  exact (apply_fields_up_to_shorter
           [("Front", "old front"); ("Back", "old back")]
           ["front"; "back"; "extra"] Hnd).
Defined.

(** The same call, run: the third stored value is dropped. *)
Example apply_three_onto_two :
  _apply_fields [("Front", "old front"); ("Back", "old back")]
    ["front"; "back"; "extra"]
  = Ret [("Front", "front"); ("Back", "back")].
Proof. reflexivity. Qed.

(** Fewer stored values than fields: the last field keeps its value. *)
Example apply_one_onto_two :
  _apply_fields [("Front", "old front"); ("Back", "old back")] ["front"]
  = Ret [("Front", "front"); ("Back", "old back")].
Proof. reflexivity. Qed.





(** ** The scenarios of the specification, run *)

(** Explicit discard and commit: after one autosave for "Basic", clearing
    "Basic" removes the file. *)
Example save_then_clear_removes_file :
  ∀ p,
    disk (snd (_clear_backup_for_notetype "Basic"
                 (snd (_save_backup_for_notetype p "Basic" ["front"; "back"]
                         ["x"] (profile None 1000)))))
    = None.
Proof. intros p. reflexivity. Qed.

(** A draft that is within the limit when the load prunes and past it when
    the load looks again is taken out of the file by the second test. *)
Example load_backup_second_test :
  ∀ p,
    _load_backup_for_notetype p "Basic"
      (profile (holding {["Basic" := stamped 0]}) 172800)
    = (Ret None, tick (tick (profile (holding ∅) 172800))).
Proof. intros p. reflexivity. Qed.

(** A [nan] stamp fails the age test, an [inf] stamp passes it, a stamp that
    is [null] does not convert. *)
Example prune_special_stamps :
  ∀ p,
    fst (_prune_old_backups p
           {["A" := JObj {["last_saved" := JNum NaN]};
             "B" := JObj {["last_saved" := JNum PInf]};
             "C" := JObj {["last_saved" := JNull]}]}
           (profile None 200000))
    = Ret {["B" := JObj {["last_saved" := JNum PInf]}]}.
Proof. intros p. reflexivity. Qed.

(** [_clear_all_backups()] on a profile without a file: the
    [FileNotFoundError] is swallowed. *)
Example clear_all_without_file :
  _clear_all_backups (profile None 1000) = (Ret tt, profile None 1000).
Proof. reflexivity. Qed.

(** ** Further properties on concrete states *)


Lemma load_backup_only_shrinks_witness :
  store_of (holding {["Basic" := stamped 199000; "Cloze" := stamped 0]})
  !! "Basic" = Some (stamped 199000)
  ∧ ∀ p,
      store_of (disk (snd (_load_backup_for_notetype p "Basic"
                  (profile (holding {["Basic" := stamped 199000;
                                      "Cloze" := stamped 0]}) 200000))))
      !! "Basic" = Some (stamped 199000).
Proof.
  split; [|intros p; reflexivity].
  exact (load_backup_only_shrinks (λ _, None) "Basic" "Basic"
           (stamped 199000)
           (profile (holding {["Basic" := stamped 199000;
                               "Cloze" := stamped 0]}) 200000) eq_refl).
Defined.




Lemma clear_then_load_finds_nothing_witness :
  writable (profile (holding {["Basic" := stamped 1000]}) 1000) = true
  ∧ ∀ p,
      fst (_load_backup_for_notetype p "Basic"
             (snd (_clear_backup_for_notetype "Basic"
                     (profile (holding {["Basic" := stamped 1000]}) 1000))))
      = Ret None.
Proof.
  split; [reflexivity|]. intros p.
  exact (clear_then_load_finds_nothing p "Basic"
           (profile (holding {["Basic" := stamped 1000]}) 1000) eq_refl).
Defined.

Lemma clear_all_removes_file_witness :
  writable (profile (holding {["Basic" := stamped 1000]}) 1000) = true
  ∧ disk (snd (_clear_all_backups
                 (profile (holding {["Basic" := stamped 1000]}) 1000)))
    = None.
Proof.
  split; [reflexivity|].
  exact (proj1 (proj2 (clear_all_removes_file
                  (profile (holding {["Basic" := stamped 1000]}) 1000)))
           eq_refl).
Defined.

Lemma prune_twice_witness :
  reading (profile None 200000) 0 <= reading (profile None 200000) 1
  ∧ ∀ p,
      (cleaned ← _prune_old_backups p
                   {["A" := stamped 27200; "B" := stamped 27201]};
       _prune_old_backups p cleaned) (profile None 200000)
      = (Ret (kept p (reading (profile None 200000) 1)
                {["A" := stamped 27200; "B" := stamped 27201]}),
         tick (tick (profile None 200000))).
Proof.
  assert (H01 : reading (profile None 200000) 0
                <= reading (profile None 200000) 1)
    by (vm_compute; discriminate).
  split; [exact H01|]. intros p.
  exact (prune_twice p {["A" := stamped 27200; "B" := stamped 27201]}
           (profile None 200000) H01).
Defined.

(** At 200000 s the entry stamped 27200 is at the limit and stays; a second
    later it goes. *)
Example prune_twice_run :
  ∀ p,
    fst ((cleaned ← _prune_old_backups p
                      {["A" := stamped 27200; "B" := stamped 27201]};
          _prune_old_backups p cleaned) (profile None 200000))
    = Ret {["B" := stamped 27201]}.
Proof. intros p. reflexivity. Qed.

Lemma apply_extracted_fields_witness :
  NoDup (note_fields basic_form).*1
  ∧ _apply_fields (note_fields basic_form)
      (_extract_fields (note_fields basic_form))
    = Ret (note_fields basic_form).
Proof.
  assert (Hnd : NoDup (note_fields basic_form).*1).
  { simpl. repeat constructor; rewrite ?elem_of_cons, ?elem_of_nil;
      intros H; decompose [or] H; discriminate || done. }
  split; [exact Hnd|].
  exact (apply_extracted_fields (note_fields basic_form) Hnd).
Defined.

Lemma extract_applied_fields_witness :
  (NoDup (note_fields blank_basic).*1
   ∧ length [JStr "front"; JStr "back"] = length (note_fields blank_basic))
  ∧ ∃ note',
      _apply_fields (note_fields blank_basic) [JStr "front"; JStr "back"]
      = Ret note'
      ∧ _extract_fields note' = [JStr "front"; JStr "back"]
      ∧ note'.*1 = (note_fields blank_basic).*1.
Proof.
  assert (Hnd : NoDup (note_fields blank_basic).*1).
  { simpl. repeat constructor; rewrite ?elem_of_cons, ?elem_of_nil;
      intros H; decompose [or] H; discriminate || done. }
  split; [by split|].
  exact (extract_applied_fields (note_fields blank_basic)
           [JStr "front"; JStr "back"] Hnd eq_refl).
Defined.


Lemma unnamed_note_no_effect_witness :
  _note_type_name (editor_note (ac_editor (dialog (A := json) None))) = Ret ""
  ∧ ∀ p,
      _restore_into_add_dialog p (dialog None)
        (profile (holding {["Basic" := stamped 0]}) 200000)
      = (Ret (dialog None), profile (holding {["Basic" := stamped 0]}) 200000).
Proof.
  split; [reflexivity|]. intros p.
  exact (proj1 (unnamed_note_no_effect p (dialog None) (dialog None) None
                  (profile (holding {["Basic" := stamped 0]}) 200000))
           eq_refl).
Defined.

Lemma patch_close_event_once_witness :
  (_draft_autosave_close_patched
     (AddCardsClass (Some (plain_close (A := string))) false) = false
   ∧ closeEvent (AddCardsClass (Some (plain_close (A := string))) false)
     = Some plain_close)
  ∧ _patch_close_event_for_drafts
      (AddCardsClass (Some (plain_close (A := string))) false)
    = AddCardsClass (Some (wrapped_close_event plain_close)) true.
Proof.
  split; [by split|].
  exact (proj2 (proj2 (patch_close_event_once
                  (AddCardsClass (Some (plain_close (A := string))) false)))
           plain_close eq_refl eq_refl).
Defined.


(** The same, run: the dialog after the restore. *)
Example autosave_then_restore_run :
  ∀ p,
    fst (_restore_into_add_dialog p (dialog (Some blank_basic))
           (snd (do_autosave p (dialog (Some basic_form)) (profile None 1000))))
    = Ret (AddCardsObj
             (EditorObj
                (Some (NoteObj true (Some "Basic")
                         [("Front", JStr "front"); ("Back", JStr "back")]
                         (Some [JStr "x"])))
                true true [LoadNoteKeepingFocus])
             None None).
Proof. intros p. reflexivity. Qed.




(** The same, run: the expired draft of "Basic" is still in the file. *)
Example added_note_run :
  disk (snd (on_add_cards_did_add_note (Some cloze_form)
               (profile (holding {["Cloze" := stamped 1000;
                                   "Basic" := stamped 0]}) 200000)))
  = holding {["Basic" := stamped 0]}.
Proof. reflexivity. Qed.

(** Opening "Basic" on a file with two drafts and closing at once: the file
    is gone. *)
Example open_then_close_run :
  ∀ p,
    disk (snd (wrapped_close_event plain_close
                 (_start_autosave_timer (dialog (Some blank_basic)))
                 (snd (on_add_cards_did_init p (dialog (Some blank_basic))
                         (profile (holding {["Basic" := stamped 900;
                                             "Cloze" := stamped 950]})
                            1000)))))
    = None.
Proof. intros p. reflexivity. Qed.
